(** * oauth2_proxy, package providers: the GitHub provider

    A shallow embedding of [providers/provider_data.go] and
    [providers/github.go].  Go strings and byte slices are [string]s (lists
    of 8-bit characters), Go's [int] status code is a [Z], a [*url.URL] is an
    [option URL] ([None] is the nil pointer), and a Go [(T, error)] result is
    a pair whose second component is an [option error] ([None] is [nil]).

    The provider talks to the outside through [net/http], and leans on
    [net/url], [encoding/json] and [fmt]; those packages are not part of the
    repository, so the embedding takes them as the operations of a class,
    [GoLib], and every statement below holds for all of its instances.  HTTP
    calls are threaded through a state monad that records each request sent,
    so that "which endpoints were called" is a property of the final state. *)

From Stdlib Require Import String Ascii List ZArith Bool Lia DecimalString Permutation.
Import ListNotations.
Local Open Scope string_scope.
Local Open Scope Z_scope.

Set Implicit Arguments.

(** ** Go values *)

(** [net/url.Userinfo] and [net/url.URL]. *)
Record Userinfo := {
  username : string;
  password : string;
  passwordSet : bool
}.

Record URL := {
  Scheme : string;
  Opaque : string;
  User : option Userinfo;
  Host : string;
  Path : string;
  RawQuery : string;
  Fragment : string
}.

(** The composite literal [url.URL{Scheme: s, Host: h, Path: p}]: the fields
    that are not named take their zero value. *)
Definition URL_lit (s h p : string) : URL :=
  {| Scheme := s; Opaque := ""; User := None; Host := h; Path := p;
     RawQuery := ""; Fragment := "" |}.

(** [url.Values], a [map[string][]string], as the association list of the
    literal that builds it. *)
Definition Values := list (string * list string).

(** Go's [error] values, by where they come from.  [Error] is the method of
    the interface. *)
Inductive error :=
| TransportError (msg : string)   (* returned by http.Client.Do / Get *)
| ReadError (msg : string)        (* returned by ioutil.ReadAll *)
| JsonError (msg : string)        (* returned by json.Unmarshal *)
| ErrorString (msg : string).     (* built by errors.New and fmt.Errorf *)

Definition Error (e : error) : string :=
  match e with
  | TransportError m | ReadError m | JsonError m | ErrorString m => m
  end.

(** An [*http.Request] and an [*http.Response].  The body of a response is
    what [ioutil.ReadAll] makes of it: all its bytes, or a read error. *)
Record Request := {
  Method : string;
  Url : string;
  Header : list (string * string)
}.

Record Response := {
  StatusCode : Z;
  Body : string + string
}.

(** What a round trip gives when the server answers with a status code and
    a body that is read to its end. *)
Definition response (code : Z) (body : string) : Response + string :=
  inl {| StatusCode := code; Body := inl body |}.

(** [http.NewRequest(method, url, nil)] and [req.Header.Set(k, v)], which
    replaces what the header held under the key. *)
Definition NewRequest (method url : string) : Request :=
  {| Method := method; Url := url; Header := [] |}.

Definition Header_Set (req : Request) (k v : string) : Request :=
  {| Method := Method req; Url := Url req;
     Header := (k, v) :: filter (fun kv => negb (fst kv =? k)%string) (Header req) |}.

(** The entries of the three JSON arrays the provider decodes. *)
Record orgEntry := { org_Login : string }.

Record teamOrg := { teamOrg_Login : string }.

Record teamEntry := {
  team_Name : string;
  team_Slug : string;
  team_Org : teamOrg
}.

Record emailEntry := {
  email_Email : string;
  email_Primary : bool
}.

(** ** The packages the provider imports *)

Class GoLib := {
  (** the state of the network and of the servers behind it *)
  World : Type;
  (** what [http.DefaultClient] makes of a request: a response or the
      message of a transport error, and the world afterwards *)
  RoundTrip : Request -> World -> (Response + string) * World;
  (** the [String] method of [url.URL], on a non-nil receiver *)
  URL_String : URL -> string;
  (** [url.Values.Encode] *)
  Values_Encode : Values -> string;
  (** the verb [%q] of [fmt] on a string *)
  fmt_q : string -> string;
  (** [json.Unmarshal] into each of the three slice types: the decoded
      entries or the message of the decoder's error *)
  Unmarshal_orgs : string -> list orgEntry + string;
  Unmarshal_teams : string -> list teamEntry + string;
  Unmarshal_emails : string -> list emailEntry + string
}.

(** The verb [%d] of [fmt] on an [int]. *)
Definition fmt_d (n : Z) : string := NilZero.string_of_int (Z.to_int n).

(** ** provider_data.go *)

Record ProviderData := {
  ProviderName : string;
  ClientID : string;
  ClientSecret : string;
  LoginUrl : option URL;
  RedeemUrl : option URL;
  ProfileUrl : option URL;
  ValidateUrl : option URL;
  Scope : string
}.

Definition Data (p : ProviderData) : ProviderData := p.

(** Modelled from the spec: the type [SessionState], which [GetEmailAddress]
    receives and which is declared in a file of the package that is not among
    the sources; the session "carries at minimum an accessToken string". *)
Record SessionState := { AccessToken : string }.

(** ** github.go *)

(** The provider embeds a [*ProviderData]; the pointer is the non-nil one
    [NewGitHubProvider] stores, so the record holds the data it points to. *)
Record GitHubProvider := {
  GitHubProvider_ProviderData : ProviderData;
  Org : string;
  Team : string
}.

(** The URL literals and the scope [NewGitHubProvider] assigns. *)
Definition default_LoginUrl : URL := URL_lit "https" "github.com" "/login/oauth/authorize".
Definition default_RedeemUrl : URL := URL_lit "https" "github.com" "/login/oauth/access_token".
Definition default_ValidateUrl : URL := URL_lit "https" "api.github.com" "/user/emails".
Definition default_Scope : string := "user:email".

(** The assignment [p.Scope = s]. *)
Definition set_Scope (d : ProviderData) (s : string) : ProviderData :=
  {| ProviderName := ProviderName d; ClientID := ClientID d;
     ClientSecret := ClientSecret d; LoginUrl := LoginUrl d;
     RedeemUrl := RedeemUrl d; ProfileUrl := ProfileUrl d;
     ValidateUrl := ValidateUrl d; Scope := s |}.

(** [SetOrgTeam]: the two fields are assigned, and [p.Scope += " read:org"]
    runs when either argument is non-empty. *)
Definition SetOrgTeam (p : GitHubProvider) (org team : string) : GitHubProvider :=
  let d := GitHubProvider_ProviderData p in
  {| GitHubProvider_ProviderData :=
       if negb (org =? "")%string || negb (team =? "")%string
       then set_Scope d (Scope d ++ " read:org")
       else d;
     Org := org; Team := team |}.

Section GitHub.
Context {L : GoLib}.

(** [u.String() == ""] for a [u : *url.URL]: the method reads [u.Scheme]
    first, so a nil [u] is a nil-pointer dereference ([None]). *)
Definition String_is_empty (u : option URL) : option bool :=
  match u with
  | None => None
  | Some u => Some (URL_String u =? "")%string
  end.

(** One [if p.X.String() == "" { p.X = &url.URL{...} }] step. *)
Definition default_url (u : option URL) (d : URL) : option (option URL) :=
  match String_is_empty u with
  | None => None
  | Some true => Some (Some d)
  | Some false => Some u
  end.

(** [NewGitHubProvider]; [None] is the run-time panic of a nil URL.  The
    assignments are made to the [ProviderData] the caller passed, which the
    provider then shares: the result's data is that same, updated, record. *)
Definition NewGitHubProvider (p : ProviderData) : option GitHubProvider :=
  match default_url (LoginUrl p) default_LoginUrl with
  | None => None
  | Some login =>
    match default_url (RedeemUrl p) default_RedeemUrl with
    | None => None
    | Some redeem =>
      match default_url (ValidateUrl p) default_ValidateUrl with
      | None => None
      | Some validate =>
        let scope := if (Scope p =? "")%string then default_Scope else Scope p in
        Some {| GitHubProvider_ProviderData :=
                  {| ProviderName := "GitHub";
                     ClientID := ClientID p;
                     ClientSecret := ClientSecret p;
                     LoginUrl := login;
                     RedeemUrl := redeem;
                     ProfileUrl := ProfileUrl p;
                     ValidateUrl := validate;
                     Scope := scope |};
                Org := ""; Team := "" |}
      end
    end
  end.

(** *** The monad of the request handlers

    A handler runs against the world, appends each request it sends to
    [sent] and each line it logs to [logged]. *)
Record State := {
  world : World;
  sent : list Request;
  logged : list string
}.

Definition M (A : Type) : Type := State -> A * State.

Definition ret {A} (a : A) : M A := fun s => (a, s).

Definition bind {A B} (c : M A) (k : A -> M B) : M B :=
  fun s => let (a, s') := c s in k a s'.

Notation "x <- c ;; k" := (bind c (fun x => k))
  (at level 100, c at next level, right associativity).

(** The state after [req] has been sent and the world has become [w]. *)
Definition sent_to (req : Request) (w : World) (s : State) : State :=
  {| world := w; sent := sent s ++ [req]; logged := logged s |}.

(** [http.DefaultClient.Do(req)] and [http.DefaultClient.Get(url)]. *)
Definition Client_Do (req : Request) : M (Response + error) :=
  fun s =>
    let (r, w) := RoundTrip req (world s) in
    (match r with
     | inl resp => inl resp
     | inr msg => inr (TransportError msg)
     end,
     sent_to req w s).

Definition Client_Get (url : string) : M (Response + error) :=
  Client_Do (NewRequest "GET" url).

(** [ioutil.ReadAll(resp.Body)]. *)
Definition ReadAll (resp : Response) : string + error :=
  match Body resp with
  | inl body => inl body
  | inr msg => inr (ReadError msg)
  end.

(** [log.Printf] (the logger's prefix is left out). *)
Definition log_Printf (line : string) : M unit :=
  fun s => (tt, {| world := world s; sent := sent s; logged := logged s ++ [line] |}).

(** The format ["got %d from %q %s"] applied to a status code, an endpoint
    and a body, and the format ["%s unmarshaling %s"] applied to an error
    and a body. *)
Definition Sprintf_got (code : Z) (endpoint body : string) : string :=
  "got " ++ fmt_d code ++ " from " ++ fmt_q endpoint ++ " " ++ body.

Definition Sprintf_unmarshaling (err : error) (body : string) : string :=
  Error err ++ " unmarshaling " ++ body.

Definition Errorf (msg : string) : error := ErrorString msg.

Definition orgs_endpoint (accessToken : string) : string :=
  "https://api.github.com/user/orgs?"
  ++ Values_Encode [("access_token", [accessToken]); ("limit", ["100"])].

Definition teams_endpoint (accessToken : string) : string :=
  "https://api.github.com/user/teams?"
  ++ Values_Encode [("access_token", [accessToken]); ("limit", ["100"])].

Definition emails_endpoint (accessToken : string) : string :=
  "https://api.github.com/user/emails?"
  ++ Values_Encode [("access_token", [accessToken])].

(** The request [hasOrg] and [hasOrgAndTeam] build for an endpoint. *)
Definition moondragon_request (endpoint : string) : Request :=
  Header_Set (NewRequest "GET" endpoint)
             "Accept" "application/vnd.github.moondragon+json".

(** The loop at the end of [hasOrg]. *)
Fixpoint range_orgs (p : GitHubProvider) (orgs : list orgEntry) : bool * option error :=
  match orgs with
  | [] => (false, None)
  | org :: orgs' =>
    if (Org p =? org_Login org)%string then (true, None)
    else range_orgs p orgs'
  end.

Definition hasOrg (p : GitHubProvider) (accessToken : string) : M (bool * option error) :=
  let endpoint := orgs_endpoint accessToken in
  let req := moondragon_request endpoint in
  r <- Client_Do req ;;
  match r with
  | inr err => ret (false, Some err)
  | inl resp =>
    match ReadAll resp with
    | inr err => ret (false, Some err)
    | inl body =>
      if negb (StatusCode resp =? 200)
      then ret (false, Some (Errorf (Sprintf_got (StatusCode resp) endpoint body)))
      else
        match Unmarshal_orgs body with
        | inr msg => ret (false, Some (JsonError msg))
        | inl orgs => ret (range_orgs p orgs)
        end
    end
  end.

(** The loop at the end of [hasOrgAndTeam]. *)
Fixpoint range_teams (p : GitHubProvider) (teams : list teamEntry) : bool * option error :=
  match teams with
  | [] => (false, None)
  | team :: teams' =>
    if (Org p =? teamOrg_Login (team_Org team))%string then
      if (Team p =? "")%string || (Team p =? team_Slug team)%string then (true, None)
      else range_teams p teams'
    else range_teams p teams'
  end.

Definition hasOrgAndTeam (p : GitHubProvider) (accessToken : string) : M (bool * option error) :=
  let endpoint := teams_endpoint accessToken in
  let req := moondragon_request endpoint in
  r <- Client_Do req ;;
  match r with
  | inr err => ret (false, Some err)
  | inl resp =>
    match ReadAll resp with
    | inr err => ret (false, Some err)
    | inl body =>
      if negb (StatusCode resp =? 200)
      then ret (false, Some (Errorf (Sprintf_got (StatusCode resp) endpoint body)))
      else
        match Unmarshal_teams body with
        | inr msg => ret (false, Some (Errorf (Sprintf_unmarshaling (JsonError msg) body)))
        | inl teams => ret (range_teams p teams)
        end
    end
  end.

(** The loop at the end of [GetEmailAddress], with the [return] after it. *)
Fixpoint range_emails (emails : list emailEntry) : string * option error :=
  match emails with
  | [] => ("", Some (ErrorString "no email address found"))
  | email :: emails' =>
    if email_Primary email then (email_Email email, None)
    else range_emails emails'
  end.

(** [GetEmailAddress] from the line that builds [params] on. *)
Definition GetEmailAddress_lookup (s : SessionState) : M (string * option error) :=
  let endpoint := emails_endpoint (AccessToken s) in
  r <- Client_Get endpoint ;;
  match r with
  | inr err => ret ("", Some err)
  | inl resp =>
    match ReadAll resp with
    | inr err => ret ("", Some err)
    | inl body =>
      if negb (StatusCode resp =? 200)
      then ret ("", Some (Errorf (Sprintf_got (StatusCode resp) endpoint body)))
      else
        _ <- log_Printf (Sprintf_got (StatusCode resp) endpoint body) ;;
        match Unmarshal_emails body with
        | inr msg => ret ("", Some (Errorf (Sprintf_unmarshaling (JsonError msg) body)))
        | inl emails => ret (range_emails emails)
        end
    end
  end.

(** [if ok, err := check; err != nil || !ok { return "", err }], followed by
    the rest of the function. *)
Definition unless_denied (check : M (bool * option error))
    (rest : M (string * option error)) : M (string * option error) :=
  r <- check ;;
  match r with
  | (_, Some err) => ret ("", Some err)
  | (false, None) => ret ("", None)
  | (true, None) => rest
  end.

Definition GetEmailAddress (p : GitHubProvider) (s : SessionState) : M (string * option error) :=
  if negb (Org p =? "")%string then
    if negb (Team p =? "")%string then
      unless_denied (hasOrgAndTeam p (AccessToken s)) (GetEmailAddress_lookup s)
    else
      unless_denied (hasOrg p (AccessToken s)) (GetEmailAddress_lookup s)
  else GetEmailAddress_lookup s.

End GitHub.

(** The check [GetEmailAddress] makes before the lookup, as one computation:
    none when no organisation is configured, otherwise the team check when a
    team is configured and the organisation check when none is.
    [GetEmailAddress_membership] below relates it to the function. *)
Definition membership_check {L : GoLib} (p : GitHubProvider) (accessToken : string)
    : M (bool * option error) :=
  if (Org p =? "")%string then ret (true, None)
  else if (Team p =? "")%string then hasOrg p accessToken
  else hasOrgAndTeam p accessToken.

(** The requests sent between the state [s] and a later state [s']. *)
Definition requests_during {L : GoLib} (s s' : State) : list Request :=
  skipn (length (sent s)) (sent s').

(** The requests of the membership check of [GetEmailAddress]: none, the
    organisations request or the teams request, by what is configured. *)
Definition membership_requests {L : GoLib} (p : GitHubProvider) (accessToken : string)
    : list Request :=
  if (Org p =? "")%string then []
  else if (Team p =? "")%string then [moondragon_request (orgs_endpoint accessToken)]
  else [moondragon_request (teams_endpoint accessToken)].

(** The provider [p] with its team constraint taken away. *)
Definition any_team (p : GitHubProvider) : GitHubProvider :=
  {| GitHubProvider_ProviderData := GitHubProvider_ProviderData p;
     Org := Org p; Team := "" |}.

(** A request to the email-listing endpoint, by its URL. *)
Definition is_email_listing (r : Request) : bool :=
  prefix "https://api.github.com/user/emails?" (Url r).

(** The number of times the token [t] occurs in a space-separated scope
    string; [cur] is the token being read. *)
Fixpoint count_token_from (t cur : string) (scope : string) : nat :=
  match scope with
  | EmptyString => if (cur =? t)%string then 1%nat else 0%nat
  | String c rest =>
    if (c =? " ")%char
    then ((if (cur =? t)%string then 1 else 0) + count_token_from t "" rest)%nat
    else count_token_from t (cur ++ String c "") rest
  end.

Definition count_token (t scope : string) : nat := count_token_from t "" scope.

(** Two team entries that differ at most in their display name. *)
Definition same_slug_and_org (t t' : teamEntry) : Prop :=
  team_Slug t = team_Slug t' /\ team_Org t = team_Org t'.

(** ** An instance of the imported packages

    A small instance of [GoLib] on which the handlers run: the world is a
    table from URLs to what the server answers, and the library functions
    are given on the values the examples use. *)
Module Sample.

Definition dq : string := String "034"%char "".

Definition quoted (s : string) : string := dq ++ s ++ dq.

(** [url.URL.String] as net/url writes it, on URLs whose parts need no
    percent-escaping. *)
Definition URL_String (u : URL) : string :=
  (if (Scheme u =? "")%string then "" else Scheme u ++ ":")
  ++ (if negb (Opaque u =? "")%string then Opaque u
      else
        (if negb (Scheme u =? "")%string || negb (Host u =? "")%string
            || match User u with Some _ => true | None => false end
         then "//"
              ++ match User u with
                 | Some ui =>
                   username ui
                   ++ (if passwordSet ui then ":" ++ password ui else "") ++ "@"
                 | None => ""
                 end
              ++ Host u
         else "")
        ++ (if negb (Path u =? "")%string && negb (prefix "/" (Path u))
               && negb (Host u =? "")%string
            then "/" else "")
        ++ Path u)
  ++ (if negb (RawQuery u =? "")%string then "?" ++ RawQuery u else "")
  ++ (if negb (Fragment u =? "")%string then "#" ++ Fragment u else "").

(** [url.Values.Encode] on keys given in sorted order and on keys and values
    made of unreserved characters. *)
Definition Values_Encode (v : Values) : string :=
  String.concat "&"
    (flat_map (fun kv => map (fun x => fst kv ++ "=" ++ x) (snd kv)) v).

(** [%q] on a string of printable ASCII with no quote and no backslash. *)
Definition fmt_q (s : string) : string := quoted s.

(** The bodies of the examples. *)
Definition orgs_json : string :=
  "[{" ++ quoted "login" ++ ":" ++ quoted "acme" ++ "}]".

Definition teams_json : string :=
  "[{" ++ quoted "name" ++ ":" ++ quoted "infra" ++ ","
  ++ quoted "slug" ++ ":" ++ quoted "ops" ++ ","
  ++ quoted "organization" ++ ":{" ++ quoted "login" ++ ":" ++ quoted "acme" ++ "}}]".

Definition emails_json : string :=
  "[{" ++ quoted "email" ++ ":" ++ quoted "a@x.com" ++ "," ++ quoted "primary" ++ ":false},{"
  ++ quoted "email" ++ ":" ++ quoted "b@x.com" ++ "," ++ quoted "primary" ++ ":true}]".

Definition secondary_json : string :=
  "[{" ++ quoted "email" ++ ":" ++ quoted "a@x.com" ++ "," ++ quoted "primary" ++ ":false}]".

Definition not_json : string := "not json".

(** What [encoding/json] reports on [not_json]. *)
Definition syntax_error : string :=
  "invalid character 'o' in literal null (expecting 'u')".

(** [json.Unmarshal] on the bodies above and on the empty array; the table
    answers any other body as it answers [not_json]. *)
Definition Unmarshal_orgs (body : string) : list orgEntry + string :=
  if (body =? orgs_json)%string then inl [ {| org_Login := "acme" |} ]
  else if (body =? "[]")%string then inl []
  else inr syntax_error.

Definition Unmarshal_teams (body : string) : list teamEntry + string :=
  if (body =? teams_json)%string
  then inl [ {| team_Name := "infra"; team_Slug := "ops";
                team_Org := {| teamOrg_Login := "acme" |} |} ]
  else if (body =? "[]")%string then inl []
  else inr syntax_error.

Definition Unmarshal_emails (body : string) : list emailEntry + string :=
  if (body =? emails_json)%string
  then inl [ {| email_Email := "a@x.com"; email_Primary := false |};
             {| email_Email := "b@x.com"; email_Primary := true |} ]
  else if (body =? secondary_json)%string
  then inl [ {| email_Email := "a@x.com"; email_Primary := false |} ]
  else if (body =? "[]")%string then inl []
  else inr syntax_error.

(** The world: the answer of the server to each URL. *)
Definition Routes := list (string * (Response + string)).

Fixpoint route (url : string) (w : Routes) : Response + string :=
  match w with
  | [] => inr "no such host"
  | (u, a) :: w' => if (u =? url)%string then a else route url w'
  end.

Definition RoundTrip (req : Request) (w : Routes) : (Response + string) * Routes :=
  (route (Url req) w, w).

Definition lib : GoLib :=
  Build_GoLib RoundTrip URL_String Values_Encode fmt_q
              Unmarshal_orgs Unmarshal_teams Unmarshal_emails.

End Sample.

(** Values the examples run on. *)
Module Examples.

(** [&url.URL{}]. *)
Definition empty_URL : URL := URL_lit "" "" "".

(** A configuration with nothing filled in. *)
Definition unset : ProviderData :=
  {| ProviderName := ""; ClientID := ""; ClientSecret := "";
     LoginUrl := Some empty_URL; RedeemUrl := Some empty_URL;
     ProfileUrl := Some empty_URL; ValidateUrl := Some empty_URL;
     Scope := "" |}.

(** The provider [NewGitHubProvider] makes of [unset]. *)
Definition github : GitHubProvider :=
  {| GitHubProvider_ProviderData :=
       {| ProviderName := "GitHub"; ClientID := ""; ClientSecret := "";
          LoginUrl := Some default_LoginUrl; RedeemUrl := Some default_RedeemUrl;
          ProfileUrl := Some empty_URL; ValidateUrl := Some default_ValidateUrl;
          Scope := "user:email" |};
     Org := ""; Team := "" |}.

Definition session : SessionState := {| AccessToken := "t0k" |}.

Definition orgs_url : string := orgs_endpoint (L := Sample.lib) "t0k".
Definition teams_url : string := teams_endpoint (L := Sample.lib) "t0k".
Definition emails_url : string := emails_endpoint (L := Sample.lib) "t0k".

(** A state in which nothing has been sent yet, over a table of answers. *)
Definition start (w : Sample.Routes) : State (L := Sample.lib) :=
  Build_State (L := Sample.lib) w [] [].

Definition acme : GitHubProvider := SetOrgTeam github "acme" "".
Definition acme_infra : GitHubProvider := SetOrgTeam github "acme" "infra".
Definition only_infra : GitHubProvider := SetOrgTeam github "" "infra".

(** Answers of the server: the user is in organisation [acme], in its team
    with slug [ops] and display name [infra], and has a primary address. *)
Definition member : Sample.Routes :=
  [ (orgs_url, response 200 Sample.orgs_json);
    (teams_url, response 200 Sample.teams_json);
    (emails_url, response 200 Sample.emails_json) ].

(** The same user with no address marked primary. *)
Definition no_primary : Sample.Routes :=
  [ (orgs_url, response 200 Sample.orgs_json);
    (teams_url, response 200 Sample.teams_json);
    (emails_url, response 200 Sample.secondary_json) ].

(** A server that refuses every call. *)
Definition forbidden : Sample.Routes :=
  [ (orgs_url, response 403 "forbidden");
    (teams_url, response 403 "forbidden");
    (emails_url, response 403 "forbidden") ].

(** A server that answers every call with a body that is not JSON. *)
Definition garbled : Sample.Routes :=
  [ (orgs_url, response 200 Sample.not_json);
    (teams_url, response 200 Sample.not_json);
    (emails_url, response 200 Sample.not_json) ].

(** A provider for an organisation the user is not in. *)
Definition initech : GitHubProvider := SetOrgTeam github "initech" "".

(** A network on which no host answers. *)
Definition unreachable : Sample.Routes := [].

(** A server whose answers break off while the body is read. *)
Definition truncated : Sample.Routes :=
  [ (orgs_url, inl {| StatusCode := 500; Body := inr "unexpected EOF" |});
    (teams_url, inl {| StatusCode := 500; Body := inr "unexpected EOF" |});
    (emails_url, inl {| StatusCode := 500; Body := inr "unexpected EOF" |}) ].

(** A server that answers the emails call with status 200 and a body that
    breaks off while it is read. *)
Definition cut_short : Sample.Routes :=
  [ (emails_url, inl {| StatusCode := 200; Body := inr "unexpected EOF" |}) ].

(** A configuration with every field filled in. *)
Definition enterprise : ProviderData :=
  {| ProviderName := "GHE"; ClientID := "id"; ClientSecret := "secret";
     LoginUrl := Some (URL_lit "https" "ghe.example.com" "/login/oauth/authorize");
     RedeemUrl := Some (URL_lit "https" "ghe.example.com" "/login/oauth/access_token");
     ProfileUrl := None;
     ValidateUrl := Some (URL_lit "https" "ghe.example.com" "/api/v3/user/emails");
     Scope := "user" |}.

End Examples.

(** ** Construction and configuration *)

Section Construction.
Context {L : GoLib}.

Lemma default_url_Some (u d : URL) :
  default_url (Some u) d = Some (Some (if (URL_String u =? "")%string then d else u)).
Proof.
  unfold default_url, String_is_empty.
  destruct (URL_String u =? "")%string; reflexivity.
Qed.

(** C6, as the code has it: on a configuration whose login, redeem and
    validate URLs are non-nil pointers, [NewGitHubProvider] returns a
    provider in which each of these three URLs is its default when its
    [String()] was empty and is unchanged otherwise, the scope is
    ["user:email"] when it was empty and unchanged otherwise, and the
    profile URL is whatever was passed: it has no default. *)
Theorem C6_NewGitHubProvider_defaults (p : ProviderData) (login redeem validate : URL) :
  LoginUrl p = Some login ->
  RedeemUrl p = Some redeem ->
  ValidateUrl p = Some validate ->
  exists g, NewGitHubProvider p = Some g /\
    let d := GitHubProvider_ProviderData g in
    (URL_String login = "" -> LoginUrl d = Some default_LoginUrl) /\
    (URL_String login <> "" -> LoginUrl d = Some login) /\
    (URL_String redeem = "" -> RedeemUrl d = Some default_RedeemUrl) /\
    (URL_String redeem <> "" -> RedeemUrl d = Some redeem) /\
    (URL_String validate = "" -> ValidateUrl d = Some default_ValidateUrl) /\
    (URL_String validate <> "" -> ValidateUrl d = Some validate) /\
    (Scope p = "" -> Scope d = "user:email") /\
    (Scope p <> "" -> Scope d = Scope p) /\
    ProfileUrl d = ProfileUrl p.
Proof.
  intros Hl Hr Hv.
  unfold NewGitHubProvider.
  rewrite Hl, Hr, Hv, !default_url_Some.
  eexists; split; [reflexivity|]. cbn.
  repeat split; intros H;
    try (apply String.eqb_eq in H; rewrite H; reflexivity);
    try (apply String.eqb_neq in H; rewrite H; reflexivity).
Qed.

End Construction.

Lemma C6_NewGitHubProvider_defaults_witness :
  exists g, NewGitHubProvider (L := Sample.lib) Examples.unset = Some g /\
    LoginUrl (GitHubProvider_ProviderData g) = Some default_LoginUrl /\
    Scope (GitHubProvider_ProviderData g) = "user:email".
Proof.
  destruct (C6_NewGitHubProvider_defaults (L := Sample.lib) Examples.unset
              (login := Examples.empty_URL) (redeem := Examples.empty_URL)
              (validate := Examples.empty_URL) eq_refl eq_refl eq_refl)
    as [g [Hg [Hlogin [_ [_ [_ [_ [_ [Hscope _]]]]]]]]].
  exists g. split; [exact Hg|]. split.
  - apply Hlogin. reflexivity.
  - apply Hscope. reflexivity.
Defined.

(** C6 fails for the profile URL: a configuration with nothing filled in
    comes back with its login URL defaulted and its profile URL still
    empty. *)
Lemma C6_profile_url_not_defaulted :
  String_is_empty (L := Sample.lib) (ProfileUrl Examples.unset) = Some true /\
  NewGitHubProvider (L := Sample.lib) Examples.unset = Some Examples.github /\
  String_is_empty (L := Sample.lib)
    (ProfileUrl (GitHubProvider_ProviderData Examples.github)) = Some true /\
  String_is_empty (L := Sample.lib)
    (LoginUrl (GitHubProvider_ProviderData Examples.github)) = Some false.
Proof. repeat split. Qed.

(** [NewGitHubProvider] stops on a nil URL. *)
Lemma NewGitHubProvider_nil_LoginUrl {L : GoLib} (p : ProviderData) :
  LoginUrl p = None -> NewGitHubProvider p = None.
Proof. intros H. unfold NewGitHubProvider. rewrite H. reflexivity. Qed.

Lemma append_assoc (a b c : string) : (a ++ b) ++ c = a ++ (b ++ c).
Proof. induction a as [|x a IH]; cbn; [|rewrite IH]; reflexivity. Qed.

Lemma count_token_from_append (s cur : string) :
  count_token_from "read:org" cur (s ++ " read:org")
  = (count_token_from "read:org" cur s + 1)%nat.
Proof.
  revert cur. induction s as [|c s IH]; intros cur.
  - cbn. reflexivity.
  - cbn. destruct (c =? " ")%char.
    + rewrite IH. lia.
    + apply IH.
Qed.

Lemma SetOrgTeam_Scope (p : GitHubProvider) (org team : string) :
  org <> "" \/ team <> "" ->
  Scope (GitHubProvider_ProviderData (SetOrgTeam p org team))
  = Scope (GitHubProvider_ProviderData p) ++ " read:org".
Proof.
  intros H. unfold SetOrgTeam.
  destruct H as [H|H]; apply String.eqb_neq in H; rewrite H; cbn;
    [|rewrite orb_true_r]; reflexivity.
Qed.

(** C7, as the code has it: every call of [SetOrgTeam] with a non-empty
    organisation or team appends [" read:org"] to the scope, so after two
    such calls the scope ends with the token twice and holds it two times
    more than before. *)
Theorem C7_SetOrgTeam_appends_each_time
    (p : GitHubProvider) (org1 team1 org2 team2 : string) :
  org1 <> "" \/ team1 <> "" ->
  org2 <> "" \/ team2 <> "" ->
  let scope' :=
    Scope (GitHubProvider_ProviderData
             (SetOrgTeam (SetOrgTeam p org1 team1) org2 team2)) in
  scope' = Scope (GitHubProvider_ProviderData p) ++ " read:org" ++ " read:org" /\
  count_token "read:org" scope'
  = (count_token "read:org" (Scope (GitHubProvider_ProviderData p)) + 2)%nat.
Proof.
  intros H1 H2. cbv zeta.
  rewrite (SetOrgTeam_Scope _ H2), (SetOrgTeam_Scope _ H1).
  split.
  - apply append_assoc.
  - unfold count_token. rewrite !count_token_from_append. lia.
Qed.

Lemma C7_SetOrgTeam_appends_each_time_witness :
  Scope (GitHubProvider_ProviderData
           (SetOrgTeam (SetOrgTeam Examples.github "acme" "") "acme" "infra"))
  = "user:email read:org read:org".
Proof.
  apply (C7_SetOrgTeam_appends_each_time Examples.github
           (org1 := "acme") (team1 := "") (org2 := "acme") (team2 := "infra")).
  - left. discriminate.
  - left. discriminate.
Defined.

(** C7 fails: configuring the freshly built provider twice leaves the
    token [read:org] in its scope two times. *)
Lemma C7_token_twice :
  count_token "read:org"
    (Scope (GitHubProvider_ProviderData
              (SetOrgTeam (SetOrgTeam Examples.github "acme" "infra") "acme" "infra")))
  = 2%nat.
Proof. reflexivity. Qed.

(** ** The three calls, case by case *)

Section Calls.
Context {L : GoLib}.

Variables (p : GitHubProvider) (accessToken : string) (s : State).

Ltac run_call H :=
  unfold hasOrg, hasOrgAndTeam, GetEmailAddress_lookup, Client_Get, bind, Client_Do;
  rewrite H; cbn.

Lemma hasOrg_status (code : Z) (body : string) (w : World) :
  RoundTrip (moondragon_request (orgs_endpoint accessToken)) (world s)
  = (response code body, w) ->
  code <> 200 ->
  hasOrg p accessToken s
  = ((false, Some (ErrorString (Sprintf_got code (orgs_endpoint accessToken) body))),
     sent_to (moondragon_request (orgs_endpoint accessToken)) w s).
Proof.
  intros H Hc. run_call H.
  apply Z.eqb_neq in Hc. rewrite Hc. reflexivity.
Qed.

Lemma hasOrg_decoded (body : string) (w : World) (orgs : list orgEntry) :
  RoundTrip (moondragon_request (orgs_endpoint accessToken)) (world s)
  = (response 200 body, w) ->
  Unmarshal_orgs body = inl orgs ->
  hasOrg p accessToken s
  = (range_orgs p orgs, sent_to (moondragon_request (orgs_endpoint accessToken)) w s).
Proof. intros H Hu. run_call H. rewrite Hu. reflexivity. Qed.

Lemma hasOrg_malformed (body : string) (w : World) (msg : string) :
  RoundTrip (moondragon_request (orgs_endpoint accessToken)) (world s)
  = (response 200 body, w) ->
  Unmarshal_orgs body = inr msg ->
  hasOrg p accessToken s
  = ((false, Some (JsonError msg)),
     sent_to (moondragon_request (orgs_endpoint accessToken)) w s).
Proof. intros H Hu. run_call H. rewrite Hu. reflexivity. Qed.

Lemma hasOrgAndTeam_status (code : Z) (body : string) (w : World) :
  RoundTrip (moondragon_request (teams_endpoint accessToken)) (world s)
  = (response code body, w) ->
  code <> 200 ->
  hasOrgAndTeam p accessToken s
  = ((false, Some (ErrorString (Sprintf_got code (teams_endpoint accessToken) body))),
     sent_to (moondragon_request (teams_endpoint accessToken)) w s).
Proof.
  intros H Hc. run_call H.
  apply Z.eqb_neq in Hc. rewrite Hc. reflexivity.
Qed.

Lemma hasOrgAndTeam_decoded (body : string) (w : World) (teams : list teamEntry) :
  RoundTrip (moondragon_request (teams_endpoint accessToken)) (world s)
  = (response 200 body, w) ->
  Unmarshal_teams body = inl teams ->
  hasOrgAndTeam p accessToken s
  = (range_teams p teams, sent_to (moondragon_request (teams_endpoint accessToken)) w s).
Proof. intros H Hu. run_call H. rewrite Hu. reflexivity. Qed.

Lemma hasOrgAndTeam_malformed (body : string) (w : World) (msg : string) :
  RoundTrip (moondragon_request (teams_endpoint accessToken)) (world s)
  = (response 200 body, w) ->
  Unmarshal_teams body = inr msg ->
  hasOrgAndTeam p accessToken s
  = ((false, Some (ErrorString (msg ++ " unmarshaling " ++ body))),
     sent_to (moondragon_request (teams_endpoint accessToken)) w s).
Proof. intros H Hu. run_call H. rewrite Hu. reflexivity. Qed.

(** Each check sends one request, whatever comes back. *)
Lemma hasOrg_sent :
  sent (snd (hasOrg p accessToken s))
  = (sent s ++ [moondragon_request (orgs_endpoint accessToken)])%list.
Proof.
  unfold hasOrg, bind, Client_Do.
  destruct (RoundTrip _ (world s)) as [[resp|msg] w]; [|reflexivity].
  destruct (ReadAll resp); [|reflexivity].
  destruct (negb _); [reflexivity|].
  destruct (Unmarshal_orgs _); reflexivity.
Qed.

Lemma hasOrgAndTeam_sent :
  sent (snd (hasOrgAndTeam p accessToken s))
  = (sent s ++ [moondragon_request (teams_endpoint accessToken)])%list.
Proof.
  unfold hasOrgAndTeam, bind, Client_Do.
  destruct (RoundTrip _ (world s)) as [[resp|msg] w]; [|reflexivity].
  destruct (ReadAll resp); [|reflexivity].
  destruct (negb _); [reflexivity|].
  destruct (Unmarshal_teams _); reflexivity.
Qed.

Variable sess : SessionState.

Lemma lookup_status (code : Z) (body : string) (w : World) :
  RoundTrip (NewRequest "GET" (emails_endpoint (AccessToken sess))) (world s)
  = (response code body, w) ->
  code <> 200 ->
  GetEmailAddress_lookup sess s
  = (("", Some (ErrorString (Sprintf_got code (emails_endpoint (AccessToken sess)) body))),
     sent_to (NewRequest "GET" (emails_endpoint (AccessToken sess))) w s).
Proof.
  intros H Hc. run_call H.
  apply Z.eqb_neq in Hc. rewrite Hc. reflexivity.
Qed.

Lemma lookup_decoded (body : string) (w : World) (emails : list emailEntry) :
  RoundTrip (NewRequest "GET" (emails_endpoint (AccessToken sess))) (world s)
  = (response 200 body, w) ->
  Unmarshal_emails body = inl emails ->
  fst (GetEmailAddress_lookup sess s) = range_emails emails.
Proof. intros H Hu. run_call H. rewrite Hu. reflexivity. Qed.

Lemma lookup_malformed (body : string) (w : World) (msg : string) :
  RoundTrip (NewRequest "GET" (emails_endpoint (AccessToken sess))) (world s)
  = (response 200 body, w) ->
  Unmarshal_emails body = inr msg ->
  fst (GetEmailAddress_lookup sess s)
  = ("", Some (ErrorString (msg ++ " unmarshaling " ++ body))).
Proof. intros H Hu. run_call H. rewrite Hu. reflexivity. Qed.

Lemma lookup_sent :
  sent (snd (GetEmailAddress_lookup sess s))
  = (sent s ++ [NewRequest "GET" (emails_endpoint (AccessToken sess))])%list.
Proof.
  unfold GetEmailAddress_lookup, Client_Get, bind, Client_Do.
  destruct (RoundTrip _ (world s)) as [[resp|msg] w]; [|reflexivity].
  destruct (ReadAll resp); [|reflexivity].
  destruct (negb _); [reflexivity|]. cbn.
  destruct (Unmarshal_emails _); reflexivity.
Qed.

(** [GetEmailAddress] is its membership check followed, unless the check
    denies or fails, by the lookup. *)
Lemma GetEmailAddress_membership :
  GetEmailAddress p sess s
  = unless_denied (membership_check p (AccessToken sess))
                  (GetEmailAddress_lookup sess) s.
Proof.
  unfold GetEmailAddress, membership_check.
  destruct (Org p =? "")%string; [reflexivity|].
  destruct (Team p =? "")%string; reflexivity.
Qed.

Lemma GetEmailAddress_allowed (s1 : State) :
  membership_check p (AccessToken sess) s = ((true, None), s1) ->
  GetEmailAddress p sess s = GetEmailAddress_lookup sess s1.
Proof.
  intros H. rewrite GetEmailAddress_membership.
  unfold unless_denied, bind. rewrite H. reflexivity.
Qed.

End Calls.

(** ** The membership checks *)

Section Membership.
Context {L : GoLib}.

Lemma range_orgs_spec (p : GitHubProvider) (orgs : list orgEntry) :
  exists ok, range_orgs p orgs = (ok, None) /\
    (ok = true <-> exists o, In o orgs /\ Org p = org_Login o).
Proof.
  induction orgs as [|o orgs [ok [Hrun Hok]]]; cbn.
  - exists false. split; [reflexivity|].
    split; [discriminate|]. intros [o [[] _]].
  - destruct (Org p =? org_Login o)%string eqn:E.
    + apply String.eqb_eq in E. exists true. split; [reflexivity|].
      split; [|reflexivity]. intros _. exists o. auto.
    + apply String.eqb_neq in E. exists ok. split; [exact Hrun|].
      rewrite Hok. split.
      * intros [o' [Hin Ho']]. exists o'. auto.
      * intros [o' [[->|Hin] Ho']]; [contradiction|]. exists o'. auto.
Qed.

(** C3: when the organisations call is answered with status 200 and a body
    that decodes to [orgs], [hasOrg] returns no error, and returns [true]
    exactly when the configured [Org] is equal, as a string, to the login
    of some entry of [orgs]. *)
Theorem C3_hasOrg_iff_login_listed
    (p : GitHubProvider) (accessToken : string) (s : State)
    (body : string) (w : World) (orgs : list orgEntry) :
  RoundTrip (moondragon_request (orgs_endpoint accessToken)) (world s)
  = (response 200 body, w) ->
  Unmarshal_orgs body = inl orgs ->
  exists ok, fst (hasOrg p accessToken s) = (ok, None) /\
    (ok = true <-> exists o, In o orgs /\ Org p = org_Login o).
Proof.
  intros H Hu. rewrite (hasOrg_decoded p _ _ H Hu). cbn.
  apply range_orgs_spec.
Qed.

Lemma range_teams_spec (p : GitHubProvider) (teams : list teamEntry) :
  exists ok, range_teams p teams = (ok, None) /\
    (ok = true <->
     exists t, In t teams /\ Org p = teamOrg_Login (team_Org t) /\
               (Team p = "" \/ Team p = team_Slug t)).
Proof.
  induction teams as [|t teams [ok [Hrun Hok]]]; cbn.
  - exists false. split; [reflexivity|].
    split; [discriminate|]. intros [t [[] _]].
  - destruct (Org p =? teamOrg_Login (team_Org t))%string eqn:E;
      [destruct ((Team p =? "")%string || (Team p =? team_Slug t)%string) eqn:E'|].
    + exists true. split; [reflexivity|]. split; [|reflexivity].
      intros _. exists t. apply String.eqb_eq in E.
      apply orb_true_iff in E'. rewrite !String.eqb_eq in E'. auto.
    + exists ok. split; [exact Hrun|]. rewrite Hok.
      apply orb_false_iff in E'. destruct E' as [E1 E2].
      apply String.eqb_neq in E1, E2. split.
      * intros [t' [Hin Ht']]. exists t'. auto.
      * intros [t' [[->|Hin] [Ho Ht']]]; [destruct Ht'; contradiction|].
        exists t'. auto.
    + exists ok. split; [exact Hrun|]. rewrite Hok.
      apply String.eqb_neq in E. split.
      * intros [t' [Hin Ht']]. exists t'. auto.
      * intros [t' [[->|Hin] [Ho Ht']]]; [contradiction|]. exists t'. auto.
Qed.

(** The loop of [hasOrgAndTeam] does not read the name of an entry. *)
Lemma range_teams_names (p : GitHubProvider) (teams teams' : list teamEntry) :
  Forall2 same_slug_and_org teams teams' ->
  range_teams p teams' = range_teams p teams.
Proof.
  induction 1 as [|t t' teams teams' [Hslug Horg] _ IH]; cbn; [reflexivity|].
  rewrite IH, Hslug, Horg. reflexivity.
Qed.

(** C4: when the teams call is answered with status 200 and a body that
    decodes to [teams], [hasOrgAndTeam] returns no error, and returns
    [true] exactly when some entry has the configured [Org] as the login of
    its organisation and the configured [Team] is empty or is the slug of
    that entry.  The names of the entries play no part: entries with the
    same slugs and organisations and any other names give the same
    result. *)
Theorem C4_hasOrgAndTeam_iff_org_and_slug
    (p : GitHubProvider) (accessToken : string) (s : State)
    (body : string) (w : World) (teams : list teamEntry) :
  RoundTrip (moondragon_request (teams_endpoint accessToken)) (world s)
  = (response 200 body, w) ->
  Unmarshal_teams body = inl teams ->
  exists ok, fst (hasOrgAndTeam p accessToken s) = (ok, None) /\
    (ok = true <->
     exists t, In t teams /\ Org p = teamOrg_Login (team_Org t) /\
               (Team p = "" \/ Team p = team_Slug t)) /\
    (forall teams', Forall2 same_slug_and_org teams teams' ->
                    range_teams p teams' = (ok, None)).
Proof.
  intros H Hu. rewrite (hasOrgAndTeam_decoded p _ _ H Hu). cbn.
  destruct (range_teams_spec p teams) as [ok [Hrun Hok]].
  exists ok. split; [exact Hrun|]. split; [exact Hok|].
  intros teams' Hsame. rewrite (range_teams_names p Hsame). exact Hrun.
Qed.

End Membership.

Lemma C3_hasOrg_iff_login_listed_witness :
  exists ok,
    fst (hasOrg (L := Sample.lib) Examples.acme "t0k" (Examples.start Examples.member))
    = (ok, None) /\
    (ok = true <->
     exists o, In o [ {| org_Login := "acme" |} ] /\ Org Examples.acme = org_Login o).
Proof.
  apply (C3_hasOrg_iff_login_listed (L := Sample.lib) Examples.acme "t0k"
           (Examples.start Examples.member)
           (body := Sample.orgs_json) (w := Examples.member)).
  - reflexivity.
  - reflexivity.
Defined.

Lemma C4_hasOrgAndTeam_iff_org_and_slug_witness :
  exists ok,
    fst (hasOrgAndTeam (L := Sample.lib) Examples.acme_infra "t0k"
           (Examples.start Examples.member))
    = (ok, None) /\
    (ok = true <->
     exists t, In t [ {| team_Name := "infra"; team_Slug := "ops";
                         team_Org := {| teamOrg_Login := "acme" |} |} ] /\
               Org Examples.acme_infra = teamOrg_Login (team_Org t) /\
               (Team Examples.acme_infra = "" \/ Team Examples.acme_infra = team_Slug t)) /\
    (forall teams',
       Forall2 same_slug_and_org
         [ {| team_Name := "infra"; team_Slug := "ops";
              team_Org := {| teamOrg_Login := "acme" |} |} ] teams' ->
       range_teams Examples.acme_infra teams' = (ok, None)).
Proof.
  apply (C4_hasOrgAndTeam_iff_org_and_slug (L := Sample.lib) Examples.acme_infra "t0k"
           (Examples.start Examples.member)
           (body := Sample.teams_json) (w := Examples.member)).
  - reflexivity.
  - reflexivity.
Defined.

(** A team whose display name, but not whose slug, is the configured team
    does not count; matching is exact in the case of the letters. *)
Example name_is_not_slug :
  fst (hasOrgAndTeam (L := Sample.lib) Examples.acme_infra "t0k"
         (Examples.start Examples.member))
  = (false, None).
Proof. reflexivity. Qed.

Example login_case_matters :
  fst (hasOrg (L := Sample.lib) (SetOrgTeam Examples.github "Acme" "") "t0k"
         (Examples.start Examples.member))
  = (false, None).
Proof. reflexivity. Qed.

(** ** Email resolution *)

Section Resolution.
Context {L : GoLib}.

Lemma range_emails_first_primary (before after : list emailEntry) (e : emailEntry) :
  Forall (fun x => email_Primary x = false) before ->
  email_Primary e = true ->
  range_emails (before ++ e :: after) = (email_Email e, None).
Proof.
  intros Hbefore He.
  induction Hbefore as [|x before Hx _ IH]; cbn.
  - rewrite He. reflexivity.
  - rewrite Hx. exact IH.
Qed.

Lemma range_emails_no_primary (emails : list emailEntry) :
  Forall (fun x => email_Primary x = false) emails ->
  range_emails emails = ("", Some (ErrorString "no email address found")).
Proof.
  induction 1 as [|x emails Hx _ IH]; cbn; [reflexivity|].
  rewrite Hx. exact IH.
Qed.

(** C1: when the membership check lets the session through and the emails
    call is answered with status 200 and a body that decodes to a list
    whose first primary entry is [e], [GetEmailAddress] returns the
    address of [e] as it stands, with no error. *)
Theorem C1_GetEmailAddress_first_primary
    (p : GitHubProvider) (sess : SessionState) (s s1 : State)
    (body : string) (w : World) (before after : list emailEntry) (e : emailEntry) :
  membership_check p (AccessToken sess) s = ((true, None), s1) ->
  RoundTrip (NewRequest "GET" (emails_endpoint (AccessToken sess))) (world s1)
  = (response 200 body, w) ->
  Unmarshal_emails body = inl (before ++ e :: after)%list ->
  Forall (fun x => email_Primary x = false) before ->
  email_Primary e = true ->
  fst (GetEmailAddress p sess s) = (email_Email e, None).
Proof.
  intros Hcheck H Hu Hbefore He.
  rewrite (GetEmailAddress_allowed _ _ _ Hcheck), (lookup_decoded _ _ H Hu).
  apply range_emails_first_primary; assumption.
Qed.

(** C2: when the membership check lets the session through and the emails
    call is answered with status 200 and a body that decodes to a list
    with no primary entry, however long, [GetEmailAddress] fails with the
    error "no email address found". *)
Theorem C2_GetEmailAddress_no_primary
    (p : GitHubProvider) (sess : SessionState) (s s1 : State)
    (body : string) (w : World) (emails : list emailEntry) :
  membership_check p (AccessToken sess) s = ((true, None), s1) ->
  RoundTrip (NewRequest "GET" (emails_endpoint (AccessToken sess))) (world s1)
  = (response 200 body, w) ->
  Unmarshal_emails body = inl emails ->
  Forall (fun x => email_Primary x = false) emails ->
  fst (GetEmailAddress p sess s)
  = ("", Some (ErrorString "no email address found")).
Proof.
  intros Hcheck H Hu Hnone.
  rewrite (GetEmailAddress_allowed _ _ _ Hcheck), (lookup_decoded _ _ H Hu).
  apply range_emails_no_primary; assumption.
Qed.

Lemma requests_during_app (s s' : State) (reqs : list Request) :
  sent s' = (sent s ++ reqs)%list -> requests_during s s' = reqs.
Proof.
  intros H. unfold requests_during. rewrite H. clear H.
  induction (sent s) as [|r l IH]; [reflexivity|exact IH].
Qed.

Lemma teams_request_is_not_email_listing (accessToken : string) :
  is_email_listing (moondragon_request (teams_endpoint accessToken)) = false.
Proof. reflexivity. Qed.

Lemma orgs_request_is_not_email_listing (accessToken : string) :
  is_email_listing (moondragon_request (orgs_endpoint accessToken)) = false.
Proof. reflexivity. Qed.

(** C5: with an organisation and a team configured, when the team check
    returns an error or returns [false], [GetEmailAddress] returns the
    empty string with the error of the check (none when the check returned
    [false] cleanly) in the state the check left: the one request it has
    sent is the teams request, and no request went to the email-listing
    endpoint. *)
Theorem C5_GetEmailAddress_denied_before_lookup
    (p : GitHubProvider) (sess : SessionState) (s s1 : State)
    (ok : bool) (err : option error) :
  Org p <> "" ->
  Team p <> "" ->
  hasOrgAndTeam p (AccessToken sess) s = ((ok, err), s1) ->
  ok = false \/ err <> None ->
  GetEmailAddress p sess s = (("", err), s1) /\
  requests_during s (snd (GetEmailAddress p sess s))
  = [moondragon_request (teams_endpoint (AccessToken sess))] /\
  existsb is_email_listing (requests_during s (snd (GetEmailAddress p sess s))) = false.
Proof.
  intros Horg Hteam Hrun Hdenied.
  assert (Hres : GetEmailAddress p sess s = (("", err), s1)).
  { unfold GetEmailAddress.
    apply String.eqb_neq in Horg, Hteam. rewrite Horg, Hteam. cbn.
    unfold unless_denied, bind. rewrite Hrun.
    destruct ok, err as [e|]; try reflexivity.
    destruct Hdenied as [Hok|Hne]; [discriminate|contradiction]. }
  assert (Hsent : requests_during s (snd (GetEmailAddress p sess s))
                  = [moondragon_request (teams_endpoint (AccessToken sess))]).
  { apply requests_during_app. rewrite Hres.
    pose proof (hasOrgAndTeam_sent p (AccessToken sess) s) as Hs.
    rewrite Hrun in Hs. exact Hs. }
  split; [exact Hres|]. split; [exact Hsent|].
  rewrite Hsent. reflexivity.
Qed.

(** C8, as the code has it: a response whose status is not 200 makes each
    call fail, never with a clean "no": [hasOrg] and [hasOrgAndTeam] return
    [false], and [GetEmailAddress], once past the membership check, returns
    the empty string, each with an error.  When the body was read to its
    end, the message of the error is "got", the status code, "from", the
    quoted endpoint and the body; when reading the body failed, the error
    is the read error alone, with no status code and no endpoint. *)
Theorem C8_status_not_200_fails
    (p : GitHubProvider) (sess : SessionState) (s : State)
    (resp : Response) (w : World) :
  StatusCode resp <> 200 ->
  let t := AccessToken sess in
  let carried endpoint (e : error) :=
    match Body resp with
    | inl body =>
      Error e = "got " ++ fmt_d (StatusCode resp) ++ " from " ++ fmt_q endpoint
                ++ " " ++ body
    | inr msg => e = ReadError msg
    end in
  (RoundTrip (moondragon_request (orgs_endpoint t)) (world s) = (inl resp, w) ->
   exists e, fst (hasOrg p t s) = (false, Some e) /\ carried (orgs_endpoint t) e) /\
  (RoundTrip (moondragon_request (teams_endpoint t)) (world s) = (inl resp, w) ->
   exists e, fst (hasOrgAndTeam p t s) = (false, Some e) /\ carried (teams_endpoint t) e) /\
  (forall s0,
     membership_check p t s0 = ((true, None), s) ->
     RoundTrip (NewRequest "GET" (emails_endpoint t)) (world s) = (inl resp, w) ->
     exists e, fst (GetEmailAddress p sess s0) = ("", Some e) /\
               carried (emails_endpoint t) e).
Proof.
  intros Hc. apply Z.eqb_neq in Hc. cbv zeta. repeat split.
  - intros H. unfold hasOrg, bind, Client_Do, ReadAll. rewrite H.
    destruct (Body resp) as [body|msg]; cbn; [rewrite Hc|];
      eexists; split; reflexivity.
  - intros H. unfold hasOrgAndTeam, bind, Client_Do, ReadAll. rewrite H.
    destruct (Body resp) as [body|msg]; cbn; [rewrite Hc|];
      eexists; split; reflexivity.
  - intros s0 Hcheck H. rewrite (GetEmailAddress_allowed _ _ _ Hcheck).
    unfold GetEmailAddress_lookup, Client_Get, bind, Client_Do, ReadAll. rewrite H.
    destruct (Body resp) as [body|msg]; cbn; [rewrite Hc|];
      eexists; split; reflexivity.
Qed.

(** C10: with no organisation configured, whatever the team,
    [GetEmailAddress] is the email lookup alone, and the one request it
    sends is the emails request; yet [SetOrgTeam] with an empty
    organisation and a non-empty team records the team, appends
    [" read:org"] to the scope, and leaves a provider that resolves in the
    same way. *)
Theorem C10_team_without_org_is_ignored
    (p : GitHubProvider) (team : string) (sess : SessionState) (s : State) :
  Org p = "" ->
  team <> "" ->
  (GetEmailAddress p sess s = GetEmailAddress_lookup sess s /\
   requests_during s (snd (GetEmailAddress p sess s))
   = [NewRequest "GET" (emails_endpoint (AccessToken sess))]) /\
  (let p' := SetOrgTeam p "" team in
   Team p' = team /\
   Scope (GitHubProvider_ProviderData p')
   = Scope (GitHubProvider_ProviderData p) ++ " read:org" /\
   GetEmailAddress p' sess s = GetEmailAddress_lookup sess s).
Proof.
  intros Horg Hteam.
  assert (Hdirect : forall q, Org q = "" ->
            GetEmailAddress q sess s = GetEmailAddress_lookup sess s).
  { intros q Hq. unfold GetEmailAddress. rewrite Hq. reflexivity. }
  split; [split|].
  - apply Hdirect, Horg.
  - apply requests_during_app. rewrite (Hdirect p Horg). apply lookup_sent.
  - cbv zeta. split; [reflexivity|]. split.
    + apply SetOrgTeam_Scope. right. exact Hteam.
    + apply Hdirect. reflexivity.
Qed.

End Resolution.

Lemma C1_GetEmailAddress_first_primary_witness :
  fst (GetEmailAddress (L := Sample.lib) Examples.acme Examples.session
         (Examples.start Examples.member))
  = ("b@x.com", None).
Proof.
  apply (C1_GetEmailAddress_first_primary (L := Sample.lib)
           Examples.acme Examples.session (Examples.start Examples.member)
           (s1 := sent_to (L := Sample.lib) (moondragon_request Examples.orgs_url)
                    Examples.member (Examples.start Examples.member))
           (body := Sample.emails_json) (w := Examples.member)
           (before := [ {| email_Email := "a@x.com"; email_Primary := false |} ])
           [] {| email_Email := "b@x.com"; email_Primary := true |}).
  - reflexivity.
  - reflexivity.
  - reflexivity.
  - repeat constructor.
  - reflexivity.
Defined.

Lemma C2_GetEmailAddress_no_primary_witness :
  fst (GetEmailAddress (L := Sample.lib) Examples.acme Examples.session
         (Examples.start Examples.no_primary))
  = ("", Some (ErrorString "no email address found")).
Proof.
  apply (C2_GetEmailAddress_no_primary (L := Sample.lib)
           Examples.acme Examples.session (Examples.start Examples.no_primary)
           (s1 := sent_to (L := Sample.lib) (moondragon_request Examples.orgs_url)
                    Examples.no_primary (Examples.start Examples.no_primary))
           (body := Sample.secondary_json) (w := Examples.no_primary)
           (emails := [ {| email_Email := "a@x.com"; email_Primary := false |} ])).
  - reflexivity.
  - reflexivity.
  - reflexivity.
  - repeat constructor.
Defined.

Lemma C5_GetEmailAddress_denied_before_lookup_witness :
  GetEmailAddress (L := Sample.lib) Examples.acme_infra Examples.session
    (Examples.start Examples.member)
  = (("", None),
     sent_to (L := Sample.lib) (moondragon_request Examples.teams_url)
       Examples.member (Examples.start Examples.member)) /\
  requests_during (Examples.start Examples.member)
    (snd (GetEmailAddress (L := Sample.lib) Examples.acme_infra Examples.session
            (Examples.start Examples.member)))
  = [moondragon_request Examples.teams_url] /\
  existsb is_email_listing
    (requests_during (Examples.start Examples.member)
       (snd (GetEmailAddress (L := Sample.lib) Examples.acme_infra Examples.session
               (Examples.start Examples.member))))
  = false.
Proof.
  apply (C5_GetEmailAddress_denied_before_lookup (L := Sample.lib)
           Examples.acme_infra Examples.session (Examples.start Examples.member)
           (ok := false) (err := None)).
  - discriminate.
  - discriminate.
  - reflexivity.
  - left. reflexivity.
Defined.

Lemma C8_status_not_200_fails_witness :
  (exists e,
     fst (hasOrg (L := Sample.lib) Examples.github "t0k" (Examples.start Examples.forbidden))
     = (false, Some e) /\
     Error e = "got 403 from " ++ Sample.quoted Examples.orgs_url ++ " forbidden") /\
  (exists e,
     fst (hasOrgAndTeam (L := Sample.lib) Examples.github "t0k"
            (Examples.start Examples.forbidden))
     = (false, Some e) /\
     Error e = "got 403 from " ++ Sample.quoted Examples.teams_url ++ " forbidden") /\
  (exists e,
     fst (GetEmailAddress (L := Sample.lib) Examples.github Examples.session
            (Examples.start Examples.forbidden))
     = ("", Some e) /\
     Error e = "got 403 from " ++ Sample.quoted Examples.emails_url ++ " forbidden") /\
  (exists e,
     fst (GetEmailAddress (L := Sample.lib) Examples.github Examples.session
            (Examples.start Examples.truncated))
     = ("", Some e) /\
     e = ReadError "unexpected EOF").
Proof.
  assert (Hc : 403 <> 200) by discriminate.
  assert (Hc' : 500 <> 200) by discriminate.
  destruct (C8_status_not_200_fails (L := Sample.lib) Examples.github
              Examples.session (Examples.start Examples.forbidden)
              {| StatusCode := 403; Body := inl "forbidden" |} Examples.forbidden Hc)
    as [Horgs [Hteams Hemails]].
  destruct (C8_status_not_200_fails (L := Sample.lib) Examples.github
              Examples.session (Examples.start Examples.truncated)
              {| StatusCode := 500; Body := inr "unexpected EOF" |} Examples.truncated Hc')
    as [_ [_ Hbroken]].
  split; [|split; [|split]].
  - apply Horgs. reflexivity.
  - apply Hteams. reflexivity.
  - apply (Hemails (Examples.start Examples.forbidden)); reflexivity.
  - apply (Hbroken (Examples.start Examples.truncated)); reflexivity.
Defined.

(** C8 fails when the body cannot be read: on a response with status 500
    whose body breaks off, each call returns the read error, and its
    message holds neither the status code nor the endpoint. *)
Lemma C8_read_failure_hides_status :
  fst (hasOrg (L := Sample.lib) Examples.acme "t0k" (Examples.start Examples.truncated))
  = (false, Some (ReadError "unexpected EOF")) /\
  fst (hasOrgAndTeam (L := Sample.lib) Examples.acme_infra "t0k"
         (Examples.start Examples.truncated))
  = (false, Some (ReadError "unexpected EOF")) /\
  fst (GetEmailAddress (L := Sample.lib) Examples.github Examples.session
         (Examples.start Examples.truncated))
  = ("", Some (ReadError "unexpected EOF")) /\
  index 0 "500" (Error (ReadError "unexpected EOF")) = None /\
  index 0 Examples.orgs_url (Error (ReadError "unexpected EOF")) = None /\
  index 0 Examples.teams_url (Error (ReadError "unexpected EOF")) = None /\
  index 0 Examples.emails_url (Error (ReadError "unexpected EOF")) = None.
Proof. repeat split. Qed.

Lemma C10_team_without_org_is_ignored_witness :
  Scope (GitHubProvider_ProviderData Examples.only_infra) = "user:email read:org" /\
  GetEmailAddress (L := Sample.lib) Examples.only_infra Examples.session
    (Examples.start Examples.member)
  = GetEmailAddress_lookup (L := Sample.lib) Examples.session
      (Examples.start Examples.member) /\
  requests_during (Examples.start Examples.member)
    (snd (GetEmailAddress (L := Sample.lib) Examples.github Examples.session
            (Examples.start Examples.member)))
  = [NewRequest "GET" Examples.emails_url].
Proof.
  assert (Hteam : "infra" <> "") by discriminate.
  destruct (C10_team_without_org_is_ignored (L := Sample.lib) Examples.github
              Examples.session (Examples.start Examples.member) eq_refl Hteam)
    as [[_ Hsent] [_ [Hscope Hsame]]].
  split; [exact Hscope|]. split; [exact Hsame|exact Hsent].
Defined.

(** C9 at a body that is not JSON: [hasOrg] returns the decoder's error as
    it is, and its message does not hold the body; [hasOrgAndTeam] and
    [GetEmailAddress] return the message followed by "unmarshaling" and the
    body. *)
Theorem C9_hasOrg_drops_the_body :
  (fst (hasOrg (L := Sample.lib) Examples.acme "t0k" (Examples.start Examples.garbled))
   = (false, Some (JsonError Sample.syntax_error)) /\
   index 0 Sample.not_json (Error (JsonError Sample.syntax_error)) = None) /\
  fst (hasOrgAndTeam (L := Sample.lib) Examples.acme_infra "t0k"
         (Examples.start Examples.garbled))
  = (false, Some (ErrorString (Sample.syntax_error ++ " unmarshaling " ++ Sample.not_json))) /\
  fst (GetEmailAddress (L := Sample.lib) Examples.github Examples.session
         (Examples.start Examples.garbled))
  = ("", Some (ErrorString (Sample.syntax_error ++ " unmarshaling " ++ Sample.not_json))).
Proof. repeat split. Qed.

(** The scenarios of the specification. *)
Example member_of_acme_resolves :
  fst (GetEmailAddress (L := Sample.lib) Examples.acme Examples.session
         (Examples.start Examples.member))
  = ("b@x.com", None).
Proof. reflexivity. Qed.

Example no_constraint_goes_to_emails :
  sent (snd (GetEmailAddress (L := Sample.lib) Examples.github Examples.session
               (Examples.start Examples.member)))
  = [NewRequest "GET" Examples.emails_url].
Proof. reflexivity. Qed.

(** ** More on construction and configuration *)

Section ConstructionMore.
Context {L : GoLib}.

Lemma default_url_again (u d : URL) :
  default_url (Some (if (URL_String u =? "")%string then d else u)) d
  = Some (Some (if (URL_String u =? "")%string then d else u)).
Proof.
  rewrite default_url_Some.
  destruct (URL_String u =? "")%string eqn:E.
  - destruct (URL_String d =? "")%string; reflexivity.
  - rewrite E. reflexivity.
Qed.

(** X1: [NewGitHubProvider] is idempotent: building a provider from the
    data of a provider it has built gives that provider again. *)
Theorem X1_NewGitHubProvider_idempotent (p : ProviderData) (g : GitHubProvider) :
  NewGitHubProvider p = Some g ->
  NewGitHubProvider (GitHubProvider_ProviderData g) = Some g.
Proof.
  unfold NewGitHubProvider.
  destruct (LoginUrl p) as [login|]; [|discriminate].
  destruct (RedeemUrl p) as [redeem|];
    [|rewrite default_url_Some; discriminate].
  destruct (ValidateUrl p) as [validate|];
    [|rewrite !default_url_Some; discriminate].
  rewrite !default_url_Some. intros H. injection H as <-.
  cbn [GitHubProvider_ProviderData LoginUrl RedeemUrl ValidateUrl Scope
       ProviderName ClientID ClientSecret ProfileUrl].
  rewrite !default_url_again.
  destruct (Scope p =? "")%string eqn:E; cbn; [|rewrite E]; reflexivity.
Qed.

(** X2: [NewGitHubProvider] stops with a nil-pointer panic exactly when the
    login, the redeem or the validate URL is nil; a nil profile URL does no
    harm. *)
Theorem X2_NewGitHubProvider_panics_iff_nil (p : ProviderData) :
  NewGitHubProvider p = None
  <-> LoginUrl p = None \/ RedeemUrl p = None \/ ValidateUrl p = None.
Proof.
  unfold NewGitHubProvider.
  destruct (LoginUrl p) as [login|]; [|cbn; tauto].
  destruct (RedeemUrl p) as [redeem|]; [|rewrite default_url_Some; tauto].
  destruct (ValidateUrl p) as [validate|]; [|rewrite !default_url_Some; tauto].
  rewrite !default_url_Some.
  split; [discriminate|]. intros [H|[H|H]]; discriminate.
Qed.

(** X3: a provider [NewGitHubProvider] returns is named "GitHub" whatever
    name the configuration had, keeps the client credentials, and carries
    no organisation or team, so that it resolves an address by the email
    lookup alone. *)
Theorem X3_NewGitHubProvider_fresh
    (p : ProviderData) (g : GitHubProvider) (sess : SessionState) (s : State) :
  NewGitHubProvider p = Some g ->
  ProviderName (GitHubProvider_ProviderData g) = "GitHub" /\
  ClientID (GitHubProvider_ProviderData g) = ClientID p /\
  ClientSecret (GitHubProvider_ProviderData g) = ClientSecret p /\
  Org g = "" /\ Team g = "" /\
  GetEmailAddress g sess s = GetEmailAddress_lookup sess s.
Proof.
  unfold NewGitHubProvider.
  destruct (default_url (LoginUrl p) default_LoginUrl); [|discriminate].
  destruct (default_url (RedeemUrl p) default_RedeemUrl); [|discriminate].
  destruct (default_url (ValidateUrl p) default_ValidateUrl); [|discriminate].
  intros H. injection H as <-. repeat split.
Qed.

End ConstructionMore.

Lemma X1_NewGitHubProvider_idempotent_witness :
  NewGitHubProvider (L := Sample.lib) (GitHubProvider_ProviderData Examples.github)
  = Some Examples.github.
Proof.
  apply (X1_NewGitHubProvider_idempotent (L := Sample.lib) Examples.unset).
  reflexivity.
Defined.

Lemma X3_NewGitHubProvider_fresh_witness :
  exists g, NewGitHubProvider (L := Sample.lib) Examples.enterprise = Some g /\
    ProviderName (GitHubProvider_ProviderData g) = "GitHub" /\
    ClientSecret (GitHubProvider_ProviderData g) = "secret" /\
    Org g = "".
Proof.
  eexists. split; [reflexivity|].
  destruct (X3_NewGitHubProvider_fresh (L := Sample.lib) Examples.enterprise
              Examples.session (Examples.start Examples.member) eq_refl)
    as [Hname [_ [Hsecret [Horg _]]]].
  split; [exact Hname|]. split; [exact Hsecret|exact Horg].
Defined.

(** X4: [SetOrgTeam] records its two arguments and touches nothing of the
    configuration but the scope, which keeps its old contents as a
    prefix. *)
Theorem X4_SetOrgTeam_changes_only_scope (p : GitHubProvider) (org team : string) :
  let d := GitHubProvider_ProviderData p in
  let d' := GitHubProvider_ProviderData (SetOrgTeam p org team) in
  Org (SetOrgTeam p org team) = org /\ Team (SetOrgTeam p org team) = team /\
  ProviderName d' = ProviderName d /\ ClientID d' = ClientID d /\
  ClientSecret d' = ClientSecret d /\ LoginUrl d' = LoginUrl d /\
  RedeemUrl d' = RedeemUrl d /\ ProfileUrl d' = ProfileUrl d /\
  ValidateUrl d' = ValidateUrl d /\
  prefix (Scope d) (Scope d') = true.
Proof.
  assert (Happ : forall a b, prefix a (a ++ b) = true).
  { intros a b. induction a as [|c a IH]; cbn; [destruct b; reflexivity|].
    destruct (ascii_dec c c); [exact IH|contradiction]. }
  assert (Hrefl : forall a, prefix a a = true).
  { intros a. induction a as [|c a IH]; cbn; [reflexivity|].
    destruct (ascii_dec c c); [exact IH|contradiction]. }
  cbv zeta. unfold SetOrgTeam.
  destruct (negb (org =? "")%string || negb (team =? "")%string); cbn.
  - repeat split. apply Happ.
  - repeat split. apply Hrefl.
Qed.

(** X5: taking a constraint away again does not take the elevated scope
    away: after [SetOrgTeam] with a non-empty argument and then with two
    empty ones, no organisation and no team is configured, and the scope
    still ends in [" read:org"]. *)
Theorem X5_SetOrgTeam_clearing_keeps_scope (p : GitHubProvider) (org team : string) :
  org <> "" \/ team <> "" ->
  let p' := SetOrgTeam (SetOrgTeam p org team) "" "" in
  Org p' = "" /\ Team p' = "" /\
  Scope (GitHubProvider_ProviderData p')
  = Scope (GitHubProvider_ProviderData p) ++ " read:org".
Proof.
  intros H. cbv zeta. split; [reflexivity|]. split; [reflexivity|].
  apply (SetOrgTeam_Scope p H).
Qed.

Lemma X5_SetOrgTeam_clearing_keeps_scope_witness :
  Org (SetOrgTeam Examples.acme_infra "" "") = "" /\
  Team (SetOrgTeam Examples.acme_infra "" "") = "" /\
  Scope (GitHubProvider_ProviderData (SetOrgTeam Examples.acme_infra "" ""))
  = "user:email read:org".
Proof.
  apply (X5_SetOrgTeam_clearing_keeps_scope Examples.github
           (org := "acme") (team := "infra")).
  left. discriminate.
Defined.

(** X6: a configuration with no scope, made into a provider and given a
    constraint once, asks for the scope ["user:email read:org"]. *)
Theorem X6_default_scope_with_constraint {L : GoLib}
    (p : ProviderData) (g : GitHubProvider) (org team : string) :
  NewGitHubProvider p = Some g ->
  Scope p = "" ->
  org <> "" \/ team <> "" ->
  Scope (GitHubProvider_ProviderData (SetOrgTeam g org team)) = "user:email read:org".
Proof.
  intros Hg Hscope Hne. rewrite (SetOrgTeam_Scope g Hne).
  revert Hg. unfold NewGitHubProvider.
  destruct (default_url (LoginUrl p) default_LoginUrl); [|discriminate].
  destruct (default_url (RedeemUrl p) default_RedeemUrl); [|discriminate].
  destruct (default_url (ValidateUrl p) default_ValidateUrl); [|discriminate].
  intros H. injection H as <-. cbn. rewrite Hscope. reflexivity.
Qed.

Lemma X6_default_scope_with_constraint_witness :
  Scope (GitHubProvider_ProviderData (SetOrgTeam Examples.github "acme" ""))
  = "user:email read:org".
Proof.
  apply (X6_default_scope_with_constraint (L := Sample.lib) Examples.unset).
  - reflexivity.
  - reflexivity.
  - left. discriminate.
Defined.

(** ** More on the three calls *)

Section CallsMore.
Context {L : GoLib}.

Ltac step_call :=
  unfold hasOrg, hasOrgAndTeam, GetEmailAddress_lookup, Client_Get, bind, Client_Do.

(** X7: an error of the transport comes back as it is, with [false] or the
    empty string: from [hasOrg], from [hasOrgAndTeam], and from the emails
    call of [GetEmailAddress]. *)
Theorem X7_transport_error_is_returned
    (p : GitHubProvider) (sess : SessionState) (s : State) (msg : string) (w : World) :
  let t := AccessToken sess in
  (RoundTrip (moondragon_request (orgs_endpoint t)) (world s) = (inr msg, w) ->
   fst (hasOrg p t s) = (false, Some (TransportError msg))) /\
  (RoundTrip (moondragon_request (teams_endpoint t)) (world s) = (inr msg, w) ->
   fst (hasOrgAndTeam p t s) = (false, Some (TransportError msg))) /\
  (forall s0,
     membership_check p t s0 = ((true, None), s) ->
     RoundTrip (NewRequest "GET" (emails_endpoint t)) (world s) = (inr msg, w) ->
     fst (GetEmailAddress p sess s0) = ("", Some (TransportError msg))).
Proof.
  cbv zeta. repeat split.
  - intros H. step_call. rewrite H. reflexivity.
  - intros H. step_call. rewrite H. reflexivity.
  - intros s0 Hcheck H. rewrite (GetEmailAddress_allowed _ _ _ Hcheck).
    step_call. rewrite H. reflexivity.
Qed.

(** X8: when the body cannot be read to its end, each call returns the
    read error, whatever the status code is: the status is looked at only
    after the body has been read. *)
Theorem X8_read_error_comes_before_status
    (p : GitHubProvider) (sess : SessionState) (s : State)
    (code : Z) (msg : string) (w : World) :
  let t := AccessToken sess in
  let broken : Response + string := inl {| StatusCode := code; Body := inr msg |} in
  (RoundTrip (moondragon_request (orgs_endpoint t)) (world s) = (broken, w) ->
   fst (hasOrg p t s) = (false, Some (ReadError msg))) /\
  (RoundTrip (moondragon_request (teams_endpoint t)) (world s) = (broken, w) ->
   fst (hasOrgAndTeam p t s) = (false, Some (ReadError msg))) /\
  (forall s0,
     membership_check p t s0 = ((true, None), s) ->
     RoundTrip (NewRequest "GET" (emails_endpoint t)) (world s) = (broken, w) ->
     fst (GetEmailAddress p sess s0) = ("", Some (ReadError msg))).
Proof.
  cbv zeta. repeat split.
  - intros H. step_call. rewrite H. reflexivity.
  - intros H. step_call. rewrite H. reflexivity.
  - intros s0 Hcheck H. rewrite (GetEmailAddress_allowed _ _ _ Hcheck).
    step_call. rewrite H. reflexivity.
Qed.

Lemma range_orgs_no_error (p : GitHubProvider) (orgs : list orgEntry) :
  snd (range_orgs p orgs) = None.
Proof. destruct (range_orgs_spec p orgs) as [ok [-> _]]. reflexivity. Qed.

Lemma range_teams_no_error (p : GitHubProvider) (teams : list teamEntry) :
  snd (range_teams p teams) = None.
Proof. destruct (range_teams_spec p teams) as [ok [-> _]]. reflexivity. Qed.

Lemma range_emails_shape (emails : list emailEntry) :
  fst (range_emails emails) = "" \/ snd (range_emails emails) = None.
Proof.
  induction emails as [|e emails IH]; cbn; [left; reflexivity|].
  destruct (email_Primary e); [right; reflexivity|exact IH].
Qed.

Lemma hasOrg_shape (p : GitHubProvider) (t : string) (s : State) :
  fst (fst (hasOrg p t s)) = false \/ snd (fst (hasOrg p t s)) = None.
Proof.
  step_call.
  destruct (RoundTrip _ (world s)) as [[resp|msg] w]; [|left; reflexivity].
  destruct (ReadAll resp); [|left; reflexivity].
  destruct (negb _); [left; reflexivity|].
  destruct (Unmarshal_orgs _); [|left; reflexivity].
  right. apply range_orgs_no_error.
Qed.

Lemma hasOrgAndTeam_shape (p : GitHubProvider) (t : string) (s : State) :
  fst (fst (hasOrgAndTeam p t s)) = false \/ snd (fst (hasOrgAndTeam p t s)) = None.
Proof.
  step_call.
  destruct (RoundTrip _ (world s)) as [[resp|msg] w]; [|left; reflexivity].
  destruct (ReadAll resp); [|left; reflexivity].
  destruct (negb _); [left; reflexivity|].
  destruct (Unmarshal_teams _); [|left; reflexivity].
  right. apply range_teams_no_error.
Qed.

Lemma lookup_shape (sess : SessionState) (s : State) :
  fst (fst (GetEmailAddress_lookup sess s)) = ""
  \/ snd (fst (GetEmailAddress_lookup sess s)) = None.
Proof.
  step_call.
  destruct (RoundTrip _ (world s)) as [[resp|msg] w]; [|left; reflexivity].
  destruct (ReadAll resp); [|left; reflexivity].
  destruct (negb _); [left; reflexivity|]. cbn.
  destruct (Unmarshal_emails _); [|left; reflexivity].
  apply range_emails_shape.
Qed.

(** X9: no call returns a result together with an error: [hasOrg] and
    [hasOrgAndTeam] return [false] or no error, and [GetEmailAddress]
    returns the empty string or no error. *)
Theorem X9_no_result_beside_an_error
    (p : GitHubProvider) (sess : SessionState) (s : State) :
  let t := AccessToken sess in
  (fst (fst (hasOrg p t s)) = false \/ snd (fst (hasOrg p t s)) = None) /\
  (fst (fst (hasOrgAndTeam p t s)) = false \/ snd (fst (hasOrgAndTeam p t s)) = None) /\
  (fst (fst (GetEmailAddress p sess s)) = ""
   \/ snd (fst (GetEmailAddress p sess s)) = None).
Proof.
  cbv zeta. split; [apply hasOrg_shape|]. split; [apply hasOrgAndTeam_shape|].
  rewrite GetEmailAddress_membership. unfold unless_denied, bind.
  destruct (membership_check p (AccessToken sess) s) as [[ok err] s1].
  destruct ok, err as [e|]; try (left; reflexivity).
  apply lookup_shape.
Qed.

(** X10: with an organisation and no team configured, when the
    organisation check returns an error or returns [false],
    [GetEmailAddress] returns the empty string with the error of the check
    in the state the check left: the one request sent is the organisations
    request, and none goes to the email-listing endpoint. *)
Theorem X10_org_check_denied_before_lookup
    (p : GitHubProvider) (sess : SessionState) (s s1 : State)
    (ok : bool) (err : option error) :
  Org p <> "" ->
  Team p = "" ->
  hasOrg p (AccessToken sess) s = ((ok, err), s1) ->
  ok = false \/ err <> None ->
  GetEmailAddress p sess s = (("", err), s1) /\
  requests_during s (snd (GetEmailAddress p sess s))
  = [moondragon_request (orgs_endpoint (AccessToken sess))] /\
  existsb is_email_listing (requests_during s (snd (GetEmailAddress p sess s))) = false.
Proof.
  intros Horg Hteam Hrun Hdenied.
  assert (Hres : GetEmailAddress p sess s = (("", err), s1)).
  { unfold GetEmailAddress.
    apply String.eqb_neq in Horg. rewrite Horg, Hteam. cbn.
    unfold unless_denied, bind. rewrite Hrun.
    destruct ok, err as [e|]; try reflexivity.
    destruct Hdenied as [Hok|Hne]; [discriminate|contradiction]. }
  assert (Hsent : requests_during s (snd (GetEmailAddress p sess s))
                  = [moondragon_request (orgs_endpoint (AccessToken sess))]).
  { apply requests_during_app. rewrite Hres.
    pose proof (hasOrg_sent p (AccessToken sess) s) as Hs.
    rewrite Hrun in Hs. exact Hs. }
  split; [exact Hres|]. split; [exact Hsent|].
  rewrite Hsent. reflexivity.
Qed.

Lemma membership_check_sent (p : GitHubProvider) (t : string) (s : State) :
  sent (snd (membership_check p t s)) = (sent s ++ membership_requests p t)%list.
Proof.
  unfold membership_check, membership_requests.
  destruct (Org p =? "")%string; [cbn; symmetry; apply app_nil_r|].
  destruct (Team p =? "")%string; [apply hasOrg_sent|apply hasOrgAndTeam_sent].
Qed.

(** X11: the requests [GetEmailAddress] sends are those of the membership
    check (none with no organisation, the organisations request with an
    organisation alone, the teams request with a team as well), followed
    by the emails request when, and only when, the check returned [true]
    with no error. *)
Theorem X11_requests_of_GetEmailAddress
    (p : GitHubProvider) (sess : SessionState) (s : State) :
  let t := AccessToken sess in
  requests_during s (snd (GetEmailAddress p sess s))
  = (membership_requests p t
     ++ match fst (membership_check p t s) with
        | (true, None) => [NewRequest "GET" (emails_endpoint t)]
        | _ => []
        end)%list.
Proof.
  cbv zeta. apply requests_during_app.
  rewrite GetEmailAddress_membership. unfold unless_denied, bind.
  pose proof (membership_check_sent p (AccessToken sess) s) as Hm.
  destruct (membership_check p (AccessToken sess) s) as [[ok err] s1].
  cbn [fst snd] in *.
  destruct ok, err as [e|]; cbn [ret snd];
    try (rewrite Hm, app_nil_r; reflexivity).
  rewrite lookup_sent, Hm, app_assoc. reflexivity.
Qed.

End CallsMore.

Lemma X7_transport_error_is_returned_witness :
  fst (hasOrg (L := Sample.lib) Examples.github "t0k" (Examples.start Examples.unreachable))
  = (false, Some (TransportError "no such host")) /\
  fst (hasOrgAndTeam (L := Sample.lib) Examples.github "t0k"
         (Examples.start Examples.unreachable))
  = (false, Some (TransportError "no such host")) /\
  fst (GetEmailAddress (L := Sample.lib) Examples.github Examples.session
         (Examples.start Examples.unreachable))
  = ("", Some (TransportError "no such host")).
Proof.
  destruct (X7_transport_error_is_returned (L := Sample.lib) Examples.github
              Examples.session (Examples.start Examples.unreachable)
              "no such host" Examples.unreachable)
    as [Horgs [Hteams Hemails]].
  split; [|split].
  - apply Horgs. reflexivity.
  - apply Hteams. reflexivity.
  - apply (Hemails (Examples.start Examples.unreachable)); reflexivity.
Defined.

Lemma X8_read_error_comes_before_status_witness :
  fst (hasOrg (L := Sample.lib) Examples.github "t0k" (Examples.start Examples.truncated))
  = (false, Some (ReadError "unexpected EOF")) /\
  fst (hasOrgAndTeam (L := Sample.lib) Examples.github "t0k"
         (Examples.start Examples.truncated))
  = (false, Some (ReadError "unexpected EOF")) /\
  fst (GetEmailAddress (L := Sample.lib) Examples.github Examples.session
         (Examples.start Examples.truncated))
  = ("", Some (ReadError "unexpected EOF")).
Proof.
  destruct (X8_read_error_comes_before_status (L := Sample.lib) Examples.github
              Examples.session (Examples.start Examples.truncated)
              500 "unexpected EOF" Examples.truncated)
    as [Horgs [Hteams Hemails]].
  split; [|split].
  - apply Horgs. reflexivity.
  - apply Hteams. reflexivity.
  - apply (Hemails (Examples.start Examples.truncated)); reflexivity.
Defined.

Lemma X10_org_check_denied_before_lookup_witness :
  GetEmailAddress (L := Sample.lib) Examples.initech Examples.session
    (Examples.start Examples.member)
  = (("", None),
     sent_to (L := Sample.lib) (moondragon_request Examples.orgs_url)
       Examples.member (Examples.start Examples.member)) /\
  requests_during (Examples.start Examples.member)
    (snd (GetEmailAddress (L := Sample.lib) Examples.initech Examples.session
            (Examples.start Examples.member)))
  = [moondragon_request Examples.orgs_url] /\
  existsb is_email_listing
    (requests_during (Examples.start Examples.member)
       (snd (GetEmailAddress (L := Sample.lib) Examples.initech Examples.session
               (Examples.start Examples.member))))
  = false.
Proof.
  apply (X10_org_check_denied_before_lookup (L := Sample.lib)
           Examples.initech Examples.session (Examples.start Examples.member)
           (ok := false) (err := None)).
  - discriminate.
  - reflexivity.
  - reflexivity.
  - left. reflexivity.
Defined.

(** ** The log, the configuration and the order of entries *)

Section Observations.
Context {L : GoLib}.

Ltac open_call :=
  unfold hasOrg, hasOrgAndTeam, GetEmailAddress_lookup, Client_Get, bind, Client_Do.

Lemma hasOrg_logged (p : GitHubProvider) (t : string) (s : State) :
  logged (snd (hasOrg p t s)) = logged s.
Proof.
  open_call.
  destruct (RoundTrip _ (world s)) as [[resp|msg] w]; [|reflexivity].
  destruct (ReadAll resp); [|reflexivity].
  destruct (negb _); [reflexivity|].
  destruct (Unmarshal_orgs _); reflexivity.
Qed.

Lemma hasOrgAndTeam_logged (p : GitHubProvider) (t : string) (s : State) :
  logged (snd (hasOrgAndTeam p t s)) = logged s.
Proof.
  open_call.
  destruct (RoundTrip _ (world s)) as [[resp|msg] w]; [|reflexivity].
  destruct (ReadAll resp); [|reflexivity].
  destruct (negb _); [reflexivity|].
  destruct (Unmarshal_teams _); reflexivity.
Qed.

Lemma membership_check_logged (p : GitHubProvider) (t : string) (s : State) :
  logged (snd (membership_check p t s)) = logged s.
Proof.
  unfold membership_check.
  destruct (Org p =? "")%string; [reflexivity|].
  destruct (Team p =? "")%string; [apply hasOrg_logged|apply hasOrgAndTeam_logged].
Qed.

Lemma lookup_logged (sess : SessionState) (s : State) :
  logged (snd (GetEmailAddress_lookup sess s)) = logged s \/
  exists body,
    logged (snd (GetEmailAddress_lookup sess s))
    = (logged s ++ [Sprintf_got 200 (emails_endpoint (AccessToken sess)) body])%list.
Proof.
  open_call.
  destruct (RoundTrip _ (world s)) as [[resp|msg] w]; [|left; reflexivity].
  unfold ReadAll. destruct (Body resp) as [body|msg]; [|left; reflexivity].
  destruct (StatusCode resp =? 200) eqn:E; [|left; reflexivity].
  apply Z.eqb_eq in E. rewrite E. cbn.
  right. exists body. destruct (Unmarshal_emails body); reflexivity.
Qed.

Lemma lookup_logged_response (sess : SessionState) (s : State) (resp : Response) (w : World) :
  RoundTrip (NewRequest "GET" (emails_endpoint (AccessToken sess))) (world s)
  = (inl resp, w) ->
  logged (snd (GetEmailAddress_lookup sess s))
  = (logged s
     ++ match Body resp with
        | inl body =>
          if StatusCode resp =? 200
          then [Sprintf_got 200 (emails_endpoint (AccessToken sess)) body]
          else []
        | inr _ => []
        end)%list.
Proof.
  intros H. open_call. rewrite H. unfold ReadAll.
  destruct (Body resp) as [body|msg]; cbn; [|symmetry; apply app_nil_r].
  destruct (StatusCode resp =? 200) eqn:E; cbn; [|symmetry; apply app_nil_r].
  apply Z.eqb_eq in E. rewrite E.
  destruct (Unmarshal_emails body); reflexivity.
Qed.

(** X12: the two membership checks write nothing to the log;
    [GetEmailAddress] writes nothing or one line, and a line it writes is
    the "got 200 from" line of the emails call, with the endpoint, in which
    the access token stands, and the whole body.  Once the membership check
    has passed and the emails call has a response, the line is written
    exactly when the body was read to its end and the status is 200,
    whether or not the body then decodes; a body that cannot be read, or
    any other status, leaves the log as it was. *)
Theorem X12_what_is_logged
    (p : GitHubProvider) (sess : SessionState) (s : State) :
  let t := AccessToken sess in
  let line body := "got " ++ fmt_d 200 ++ " from " ++ fmt_q (emails_endpoint t)
                   ++ " " ++ body in
  logged (snd (hasOrg p t s)) = logged s /\
  logged (snd (hasOrgAndTeam p t s)) = logged s /\
  (logged (snd (GetEmailAddress p sess s)) = logged s \/
   exists body, logged (snd (GetEmailAddress p sess s)) = (logged s ++ [line body])%list) /\
  (forall s1 resp w,
     membership_check p t s = ((true, None), s1) ->
     RoundTrip (NewRequest "GET" (emails_endpoint t)) (world s1) = (inl resp, w) ->
     logged (snd (GetEmailAddress p sess s))
     = (logged s
        ++ match Body resp with
           | inl body => if StatusCode resp =? 200 then [line body] else []
           | inr _ => []
           end)%list).
Proof.
  cbv zeta. split; [apply hasOrg_logged|]. split; [apply hasOrgAndTeam_logged|].
  pose proof (membership_check_logged p (AccessToken sess) s) as Hm.
  split.
  - rewrite GetEmailAddress_membership. unfold unless_denied, bind.
    destruct (membership_check p (AccessToken sess) s) as [[ok err] s1].
    cbn [snd] in Hm.
    destruct ok, err as [e|]; try (left; exact Hm).
    rewrite <- Hm. apply lookup_logged.
  - intros s1 resp w Hcheck H.
    rewrite (GetEmailAddress_allowed _ _ _ Hcheck), (lookup_logged_response _ _ H).
    rewrite Hcheck in Hm. cbn [snd] in Hm. rewrite Hm. reflexivity.
Qed.

Lemma range_orgs_Org (p p' : GitHubProvider) (orgs : list orgEntry) :
  Org p = Org p' -> range_orgs p orgs = range_orgs p' orgs.
Proof.
  intros H. induction orgs as [|o orgs IH]; cbn; [reflexivity|].
  rewrite H, IH. reflexivity.
Qed.

Lemma range_teams_Org_Team (p p' : GitHubProvider) (teams : list teamEntry) :
  Org p = Org p' -> Team p = Team p' -> range_teams p teams = range_teams p' teams.
Proof.
  intros H H'. induction teams as [|t teams IH]; cbn; [reflexivity|].
  rewrite H, H', IH. reflexivity.
Qed.

(** X13: the URLs, the scope and the credentials of the configuration play
    no part in resolution: two providers with the same organisation and
    the same team give the same result, send the same requests and leave
    the same state.  The three endpoints are fixed in the code. *)
Theorem X13_configuration_is_not_consulted
    (p p' : GitHubProvider) (sess : SessionState) (s : State) :
  Org p = Org p' ->
  Team p = Team p' ->
  GetEmailAddress p sess s = GetEmailAddress p' sess s.
Proof.
  intros Horg Hteam. unfold GetEmailAddress. rewrite <- Horg, <- Hteam.
  destruct (Org p =? "")%string; [reflexivity|].
  destruct (Team p =? "")%string; cbn; unfold unless_denied, bind.
  - replace (hasOrg p' (AccessToken sess) s) with (hasOrg p (AccessToken sess) s);
      [reflexivity|].
    open_call.
    destruct (RoundTrip _ (world s)) as [[resp|msg] w]; [|reflexivity].
    destruct (ReadAll resp); [|reflexivity].
    destruct (negb _); [reflexivity|].
    destruct (Unmarshal_orgs _); [|reflexivity].
    unfold ret. rewrite (range_orgs_Org p p' _ Horg). reflexivity.
  - replace (hasOrgAndTeam p' (AccessToken sess) s)
      with (hasOrgAndTeam p (AccessToken sess) s); [reflexivity|].
    open_call.
    destruct (RoundTrip _ (world s)) as [[resp|msg] w]; [|reflexivity].
    destruct (ReadAll resp); [|reflexivity].
    destruct (negb _); [reflexivity|].
    destruct (Unmarshal_teams _); [|reflexivity].
    unfold ret. rewrite (range_teams_Org_Team p p' _ Horg Hteam). reflexivity.
Qed.

Lemma range_teams_any_team (p : GitHubProvider) (teams : list teamEntry) (err : option error) :
  range_teams p teams = (true, err) -> range_teams (any_team p) teams = (true, err).
Proof.
  induction teams as [|t teams IH]; cbn; [discriminate|].
  destruct (Org p =? teamOrg_Login (team_Org t))%string; [|exact IH].
  destruct ((Team p =? "")%string || (Team p =? team_Slug t)%string);
    [intros H; exact H|].
  intros H. destruct (range_teams_spec p teams) as [ok [Hrun _]].
  rewrite Hrun in H. injection H as _ <-. reflexivity.
Qed.

(** X14: in [hasOrgAndTeam] an empty team asks for less than any team:
    when the check returns [true] for a provider, it returns [true], in the
    same state, for that provider with its team taken away. *)
Theorem X14_empty_team_admits_more
    (p : GitHubProvider) (t : string) (s s1 : State) (err : option error) :
  hasOrgAndTeam p t s = ((true, err), s1) ->
  hasOrgAndTeam (any_team p) t s = ((true, err), s1).
Proof.
  open_call.
  destruct (RoundTrip _ (world s)) as [[resp|msg] w]; [|discriminate].
  destruct (ReadAll resp); [|discriminate].
  destruct (negb _); [discriminate|].
  destruct (Unmarshal_teams _) as [teams|msg]; [|discriminate].
  unfold ret. intros H. injection H as H <-.
  rewrite (range_teams_any_team p teams H). reflexivity.
Qed.

(** X15: the order in which the organisations or the teams are listed does
    not change the answer of a membership loop: it is the same on every
    rearrangement of the entries. *)
Theorem X15_membership_ignores_order
    (p : GitHubProvider) (orgs orgs' : list orgEntry) (teams teams' : list teamEntry) :
  Permutation orgs orgs' ->
  Permutation teams teams' ->
  range_orgs p orgs = range_orgs p orgs' /\
  range_teams p teams = range_teams p teams'.
Proof.
  intros Ho Ht. split.
  - destruct (range_orgs_spec p orgs) as [ok [-> Hok]].
    destruct (range_orgs_spec p orgs') as [ok' [-> Hok']].
    f_equal. apply eq_true_iff_eq. rewrite Hok, Hok'.
    split; intros [o [Hin Heq]]; exists o; split; try exact Heq.
    + apply (Permutation_in _ Ho Hin).
    + apply (Permutation_in _ (Permutation_sym Ho) Hin).
  - destruct (range_teams_spec p teams) as [ok [-> Hok]].
    destruct (range_teams_spec p teams') as [ok' [-> Hok']].
    f_equal. apply eq_true_iff_eq. rewrite Hok, Hok'.
    split; intros [t [Hin Heq]]; exists t; split; try exact Heq.
    + apply (Permutation_in _ Ht Hin).
    + apply (Permutation_in _ (Permutation_sym Ht) Hin).
Qed.

End Observations.

Lemma X12_what_is_logged_witness :
  logged (snd (GetEmailAddress (L := Sample.lib) Examples.acme Examples.session
                 (Examples.start Examples.member)))
  = ["got 200 from " ++ Sample.quoted Examples.emails_url ++ " " ++ Sample.emails_json] /\
  logged (snd (GetEmailAddress (L := Sample.lib) Examples.github Examples.session
                 (Examples.start Examples.cut_short)))
  = [].
Proof.
  destruct (X12_what_is_logged (L := Sample.lib) Examples.acme Examples.session
              (Examples.start Examples.member))
    as [_ [_ [_ Hline]]].
  destruct (X12_what_is_logged (L := Sample.lib) Examples.github Examples.session
              (Examples.start Examples.cut_short))
    as [_ [_ [_ Hnone]]].
  split.
  - apply (Hline (sent_to (L := Sample.lib) (moondragon_request Examples.orgs_url)
                    Examples.member (Examples.start Examples.member))
                 {| StatusCode := 200; Body := inl Sample.emails_json |} Examples.member).
    + reflexivity.
    + reflexivity.
  - apply (Hnone (Examples.start Examples.cut_short)
                 {| StatusCode := 200; Body := inr "unexpected EOF" |} Examples.cut_short).
    + reflexivity.
    + reflexivity.
Defined.

Lemma X13_configuration_is_not_consulted_witness :
  GetEmailAddress (L := Sample.lib) Examples.acme Examples.session
    (Examples.start Examples.member)
  = GetEmailAddress (L := Sample.lib)
      {| GitHubProvider_ProviderData := Examples.enterprise; Org := "acme"; Team := "" |}
      Examples.session (Examples.start Examples.member).
Proof.
  apply (X13_configuration_is_not_consulted (L := Sample.lib)).
  - reflexivity.
  - reflexivity.
Defined.

Lemma X14_empty_team_admits_more_witness :
  hasOrgAndTeam (L := Sample.lib) (any_team (SetOrgTeam Examples.github "acme" "ops"))
    "t0k" (Examples.start Examples.member)
  = ((true, None),
     sent_to (L := Sample.lib) (moondragon_request Examples.teams_url)
       Examples.member (Examples.start Examples.member)).
Proof.
  apply (X14_empty_team_admits_more (L := Sample.lib)
           (SetOrgTeam Examples.github "acme" "ops")).
  reflexivity.
Defined.

Lemma X15_membership_ignores_order_witness :
  range_orgs Examples.acme_infra [ {| org_Login := "initech" |}; {| org_Login := "acme" |} ]
  = range_orgs Examples.acme_infra [ {| org_Login := "acme" |}; {| org_Login := "initech" |} ] /\
  range_teams Examples.acme_infra
    [ {| team_Name := "a"; team_Slug := "ops"; team_Org := {| teamOrg_Login := "acme" |} |};
      {| team_Name := "b"; team_Slug := "infra"; team_Org := {| teamOrg_Login := "acme" |} |} ]
  = range_teams Examples.acme_infra
    [ {| team_Name := "b"; team_Slug := "infra"; team_Org := {| teamOrg_Login := "acme" |} |};
      {| team_Name := "a"; team_Slug := "ops"; team_Org := {| teamOrg_Login := "acme" |} |} ].
Proof.
  apply (X15_membership_ignores_order).
  - apply perm_swap.
  - apply perm_swap.
Defined.

(** The order of the addresses, on the other hand, decides which one is
    returned. *)
Example emails_order_matters :
  range_emails [ {| email_Email := "a@x.com"; email_Primary := true |};
                 {| email_Email := "b@x.com"; email_Primary := true |} ]
  <> range_emails [ {| email_Email := "b@x.com"; email_Primary := true |};
                    {| email_Email := "a@x.com"; email_Primary := true |} ].
Proof. discriminate. Qed.
